(** * The OpenWPM instrumentation record schema (src/types/schema.d.ts)

    The source file is a TypeScript declaration file: five exported
    interfaces, each a flat list of properties with a name, an
    optionality marker ([?]) and a type ([string], [number], the alias
    [DateTime = string], or a union of string literal types).

    The development embeds the declarations as data (one [interface]
    value per source interface, property by property and in source
    order) and the assignability check of the language as executable
    functions: [conforms] compares a record with an interface member by
    member, and [assignable] adds weak type detection to it.  The two
    differ on [JavascriptCookieChange] only, the one interface all of
    whose members are optional.  All statements are about these
    definitions. *)

From Stdlib Require Import ZArith List Bool.
From Stdlib Require Import Floats.SpecFloat.
From stdpp Require Import gmap strings list.

Local Open Scope string_scope.

(** ** Run-time values

    A [number] is an IEEE 754 binary64 value; [number_of_Z] is the value
    of an integer literal and [number_eqb] is [===] on numbers.  A
    property whose value is [undefined] is not distinguished from a
    property that is absent: a record is a finite map from property
    names to defined values, and reading a name outside the map yields
    no value. *)

Definition number : Type := spec_float.

Definition number_of_Z (z : Z) : number := binary_normalize 53 1024 z 0 false.

Definition number_eqb (x y : number) : bool := SFeqb x y.

#[local] Set Warnings "-register-all".
Inductive value : Type :=
| VNull
| VBool (b : bool)
| VNumber (x : number)
| VString (s : string)
| VArray (items : list value)
| VObject (props : gmap string value).

Abbreviation record := (gmap string value).

(** ** Declared types *)

Inductive type : Type :=
| TString
| TNumber
| TLit (s : string)
| TOr (a b : type).

(** [type DateTime = string;] *)
Definition DateTime : type := TString.

Record property : Type := Property {
  name : string;
  optional : bool;
  type_of : type
}.

Definition interface : Type := list property.

Declare Scope schema_scope.
Delimit Scope schema_scope with schema.
Notation "n '?:' t" := (Property n true t) (at level 60) : schema_scope.
Notation "n '!:' t" := (Property n false t) (at level 60) : schema_scope.
Notation "a '|:' b" := (TOr a b) (at level 55, right associativity) : schema_scope.
Local Open Scope schema_scope.

Definition HttpRequest : interface := [
  "id" ?: TNumber;
  "crawl_id" ?: TNumber;
  "visit_id" ?: TNumber;
  "url" !: TString;
  "top_level_url" ?: TString;
  "method" !: TString;
  "referrer" !: TString;
  "headers" !: TString;
  "channel_id" !: TString;
  "is_XHR" ?: TNumber;
  "is_frame_load" ?: TNumber;
  "is_full_page" ?: TNumber;
  "is_third_party_channel" ?: TNumber;
  "is_third_party_to_top_window" ?: TNumber;
  "triggering_origin" ?: TString;
  "loading_origin" ?: TString;
  "loading_href" ?: TString;
  "req_call_stack" ?: TString;
  "resource_type" !: TString;
  "post_body" ?: TString;
  "time_stamp" !: TString
].

Definition HttpResponse : interface := [
  "id" ?: TNumber;
  "crawl_id" ?: TNumber;
  "visit_id" ?: TNumber;
  "url" !: TString;
  "method" !: TString;
  "referrer" !: TString;
  "response_status" !: TNumber;
  "response_status_text" !: TString;
  "is_cached" !: TNumber;
  "headers" !: TString;
  "channel_id" !: TString;
  "location" !: TString;
  "time_stamp" !: TString;
  "content_hash" ?: TString
].

Definition HttpRedirect : interface := [
  "id" ?: TNumber;
  "crawl_id" ?: TNumber;
  "visit_id" ?: TNumber;
  "old_channel_id" ?: TString;
  "new_channel_id" ?: TString;
  "is_temporary" !: TNumber;
  "is_permanent" !: TNumber;
  "is_internal" !: TNumber;
  "is_sts_upgrade" !: TNumber;
  "time_stamp" !: TString
].

Definition JavascriptOperation : interface := [
  "id" ?: TNumber;
  "crawl_id" ?: TNumber;
  "visit_id" ?: TNumber;
  "script_url" ?: TString;
  "script_line" ?: TString;
  "script_col" ?: TString;
  "func_name" ?: TString;
  "script_loc_eval" ?: TString;
  "document_url" ?: TString;
  "top_level_url" ?: TString;
  "call_stack" ?: TString;
  "symbol" ?: TString;
  "operation" ?: TString;
  "value" ?: TString;
  "arguments" ?: TString;
  "time_stamp" !: TString
].

Definition JavascriptCookieChange : interface := [
  "id" ?: TNumber;
  "crawl_id" ?: TNumber;
  "visit_id" ?: TNumber;
  "change" ?: (TLit "deleted" |: TLit "added" |: TLit "changed");
  "creationTime" ?: DateTime;
  "expiry" ?: DateTime;
  "is_http_only" ?: TNumber;
  "is_host_only" ?: TNumber;
  "is_session" ?: TNumber;
  "last_accessed" ?: DateTime;
  "raw_host" ?: TString;
  "expires" ?: TNumber;
  "host" ?: TString;
  "is_domain" ?: TNumber;
  "is_secure" ?: TNumber;
  "name" ?: TString;
  "path" ?: TString;
  "policy" ?: TNumber;
  "status" ?: TNumber;
  "value" ?: TString;
  "same_site" ?: TString;
  "first_party_domain" ?: TString
].

(** The five exported record kinds. *)
Inductive record_kind : Type :=
| KHttpRequest
| KHttpResponse
| KHttpRedirect
| KJavascriptOperation
| KJavascriptCookieChange.

Definition interface_of (k : record_kind) : interface :=
  match k with
  | KHttpRequest => HttpRequest
  | KHttpResponse => HttpResponse
  | KHttpRedirect => HttpRedirect
  | KJavascriptOperation => JavascriptOperation
  | KJavascriptCookieChange => JavascriptCookieChange
  end.

Definition all_kinds : list record_kind :=
  [KHttpRequest; KHttpResponse; KHttpRedirect; KJavascriptOperation;
   KJavascriptCookieChange].

(** ** Conformance

    [has_type t v]: the value [v] inhabits the declared type [t].
    [null] inhabits none of the types that occur in the schema (strict
    null checks), and neither do booleans, arrays or nested objects. *)

Fixpoint has_type (t : type) (v : value) : bool :=
  match t with
  | TString => match v with VString _ => true | _ => false end
  | TNumber => match v with VNumber _ => true | _ => false end
  | TLit s => match v with VString s' => bool_decide (s' = s) | _ => false end
  | TOr a b => has_type a v || has_type b v
  end.

(** A declared property is satisfied by a record when its value has the
    declared type, or when it is absent and the declaration carries [?]. *)
Definition property_ok (o : record) (p : property) : bool :=
  match o !! name p with
  | Some v => has_type (type_of p) v
  | None => optional p
  end.

(** Structural conformance: every declared property is satisfied.
    Properties the interface does not declare are not inspected.  This
    is the member-by-member comparison; [assignable] below is the whole
    check. *)
Definition conforms (I : interface) (o : record) : bool :=
  forallb (property_ok o) I.

Definition required_names (I : interface) : list string :=
  map name (List.filter (fun p => negb (optional p)) I).

Definition optional_names (I : interface) : list string :=
  map name (List.filter optional I).

Definition declared_names (I : interface) : list string := map name I.

(** Every declaration of [n] in [I] carries [?]. *)
Definition may_omit (I : interface) (n : string) : bool :=
  forallb (fun p => implb (bool_decide (name p = n)) (optional p)) I.

(** Every declaration of [n] in [I] admits the value [v]. *)
Definition admits (I : interface) (n : string) (v : value) : bool :=
  forallb (fun p => implb (bool_decide (name p = n)) (has_type (type_of p) v)) I.

#[global] Instance type_eq_dec : EqDecision type.
Proof. solve_decision. Defined.

(** Every declaration of [n] in [I] has the type [t]. *)
Definition declared_as (I : interface) (n : string) (t : type) : bool :=
  forallb (fun p => implb (bool_decide (name p = n)) (bool_decide (type_of p = t))) I.

(** The identifier properties shared by the five kinds. *)
Definition identifier_names : list string := ["id"; "crawl_id"; "visit_id"].

(** The numeric properties that encode a boolean. *)
Definition flag_names : list string :=
  ["is_XHR"; "is_frame_load"; "is_full_page"; "is_third_party_channel";
   "is_third_party_to_top_window"; "is_cached"; "is_temporary";
   "is_permanent"; "is_internal"; "is_sts_upgrade"; "is_http_only";
   "is_host_only"; "is_session"; "is_domain"; "is_secure"].

(** The flags a given interface declares. *)
Definition flags_of (I : interface) : list string :=
  List.filter (fun n => bool_decide (n ∈ flag_names)) (declared_names I).

Definition is_zero_or_one (v : value) : bool :=
  match v with
  | VNumber x => number_eqb x (number_of_Z 0) || number_eqb x (number_of_Z 1)
  | _ => false
  end.

(** An [HttpRequest] carrying the seven required properties only. *)
Definition minimal_request (url method referrer headers channel_id
                            resource_type time_stamp : string) : record :=
  <["url" := VString url]>
  (<["method" := VString method]>
  (<["referrer" := VString referrer]>
  (<["headers" := VString headers]>
  (<["channel_id" := VString channel_id]>
  (<["resource_type" := VString resource_type]>
  (<["time_stamp" := VString time_stamp]> ∅)))))).

(** An [HttpRedirect] carrying the four flags and the time stamp only. *)
Definition bare_redirect (is_temporary is_permanent is_internal
                          is_sts_upgrade : number) (time_stamp : string)
  : record :=
  <["is_temporary" := VNumber is_temporary]>
  (<["is_permanent" := VNumber is_permanent]>
  (<["is_internal" := VNumber is_internal]>
  (<["is_sts_upgrade" := VNumber is_sts_upgrade]>
  (<["time_stamp" := VString time_stamp]> ∅)))).


(** The example [HttpResponse] given in the specification's testable
    properties. *)
Definition example_response : record :=
  <["url" := VString "https://example.com"]>
  (<["method" := VString "GET"]>
  (<["referrer" := VString ""]>
  (<["response_status" := VNumber (number_of_Z 200)]>
  (<["response_status_text" := VString "OK"]>
  (<["is_cached" := VNumber (number_of_Z 0)]>
  (<["headers" := VString "{}"]>
  (<["channel_id" := VString "abc123"]>
  (<["location" := VString ""]>
  (<["time_stamp" := VString "2024-01-01T00:00:00Z"]> ∅))))))))).

(** The example response with its cache flag set to 2. *)
Definition response_with_flag_two : record :=
  <["is_cached" := VNumber (number_of_Z 2)]> example_response.

(** The example response after the store has assigned identifiers. *)
Definition response_with_identifiers : record :=
  <["id" := VNumber (number_of_Z 1)]>
  (<["crawl_id" := VNumber (number_of_Z 7)]>
  (<["visit_id" := VNumber (number_of_Z 42)]> example_response)).

(** ** Operations on records *)

#[global] Instance property_eq_dec : EqDecision property.
Proof. solve_decision. Defined.

(** The record cut down to the properties whose names are listed. *)
Definition restrict_to (names : list string) (o : record) : record :=
  filter (fun nv => nv.1 ∈ names) o.

(** What is left of a record when only the properties the interface
    requires are kept: optional properties and properties the interface
    does not declare are both dropped. *)
Definition required_core (I : interface) (o : record) : record :=
  restrict_to (required_names I) o.

(** What is left of a record when every property the interface does not
    declare is dropped. *)
Definition strip_undeclared (I : interface) (o : record) : record :=
  restrict_to (declared_names I) o.

(** The record carries no property beyond those the interface declares. *)
Definition exact (I : interface) (o : record) : bool :=
  bool_decide (dom o ⊆ list_to_set (declared_names I)).

(** Two interfaces never declare one name in two different ways. *)
Definition agree (I J : interface) : bool :=
  forallb (fun p =>
    forallb (fun q => implb (bool_decide (name p = name q))
                            (bool_decide (p = q))) J) I.

(** ** Weak type detection

    An interface with at least one property, all of them optional, is
    a weak type.  A value that has properties of its own is not
    assignable to a weak type unless one of them is a property the
    type declares; the empty record has none and passes. *)

Definition weak (I : interface) : bool :=
  match I with
  | [] => false
  | _ :: _ => forallb optional I
  end.

Definition has_properties (o : record) : bool :=
  negb (bool_decide (dom o = ∅)).

Definition has_common_property (I : interface) (o : record) : bool :=
  existsb (fun nv => bool_decide (nv.1 ∈ declared_names I)) (map_to_list o).

(** Assignability of a record to an interface: weak type detection
    first, then the member-by-member comparison. *)
Definition assignable (I : interface) (o : record) : bool :=
  if weak I && has_properties o && negb (has_common_property I o)
  then false
  else conforms I o.

(** A cookie change that carries an identifier and a property the
    interface does not declare. *)
Definition identified_comment : record :=
  <["id" := VNumber (number_of_Z 1)]>
  (<["comment" := VNumber (number_of_Z 1)]> ∅).

(** A record whose one property no interface declares. *)
Definition only_comment : record :=
  <["comment" := VNumber (number_of_Z 1)]> ∅.

(** A cookie change after the store has assigned identifiers. *)
Definition cookie_with_identifiers : record :=
  <["id" := VNumber (number_of_Z 1)]>
  (<["crawl_id" := VNumber (number_of_Z 7)]>
  (<["visit_id" := VNumber (number_of_Z 42)]>
  (<["change" := VString "added"]>
  (<["name" := VString "sid"]> ∅)))).

(** Membership of a literal in a literal list. *)
Ltac in_list := repeat first [left; reflexivity | right].

(** Case analysis on the hypothesis that a name is in a literal list. *)
Ltac cases_In H :=
  simpl in H; repeat (destruct H as [H|H]; [try subst|]); [..|destruct H].

(** ** General facts about conformance *)

Section Conformance.
Variable I : interface.
Implicit Types (o : record) (p : property) (n : string) (v : value).

Lemma conforms_forall o :
  conforms I o = true ↔ ∀ p, In p I → property_ok o p = true.
Proof. unfold conforms. apply forallb_forall. Qed.

Lemma conforms_value o p v :
  conforms I o = true → In p I → o !! name p = Some v →
  has_type (type_of p) v = true.
Proof.
  intros Hc Hp Hv. apply conforms_forall with (p := p) in Hc; [|done].
  unfold property_ok in Hc. by rewrite Hv in Hc.
Qed.

Lemma required_names_In n :
  In n (required_names I) ↔ ∃ p, In p I ∧ name p = n ∧ optional p = false.
Proof.
  unfold required_names. rewrite in_map_iff. split.
  - intros (p & Hn & Hp). apply filter_In in Hp as [Hp Hr].
    exists p. by rewrite negb_true_iff in Hr.
  - intros (p & Hp & Hn & Hr). exists p. split; [done|].
    apply filter_In. by rewrite Hr.
Qed.

Lemma declared_names_In n :
  In n (declared_names I) ↔ ∃ p, In p I ∧ name p = n.
Proof.
  unfold declared_names. rewrite in_map_iff.
  split; intros (p & H1 & H2); exists p; by split.
Qed.

Lemma conforms_required_present o n :
  conforms I o = true → In n (required_names I) → is_Some (o !! n).
Proof.
  intros Hc (p & Hp & <- & Hr)%required_names_In.
  apply conforms_forall with (p := p) in Hc; [|done].
  unfold property_ok in Hc. destruct (o !! name p) as [v|]; [by eexists|].
  congruence.
Qed.

Lemma missing_required_rejected o n :
  In n (required_names I) → o !! n = None → conforms I o = false.
Proof.
  intros Hn Hnone. destruct (conforms I o) eqn:Hc; [|done].
  destruct (conforms_required_present o n Hc Hn) as [v Hv]. congruence.
Qed.

Lemma may_omit_In n p :
  may_omit I n = true → In p I → name p = n → optional p = true.
Proof.
  unfold may_omit. rewrite forallb_forall. intros H Hp Hn.
  specialize (H p Hp). by rewrite bool_decide_eq_true_2 in H.
Qed.

Lemma admits_In n v p :
  admits I n v = true → In p I → name p = n → has_type (type_of p) v = true.
Proof.
  unfold admits. rewrite forallb_forall. intros H Hp Hn.
  specialize (H p Hp). by rewrite bool_decide_eq_true_2 in H.
Qed.

(** Removing a property that every declaration marks [?] keeps a
    conforming record conforming. *)
Lemma conforms_delete o n :
  may_omit I n = true → conforms I o = true → conforms I (delete n o) = true.
Proof.
  intros Hopt Hc. apply conforms_forall. intros p Hp.
  unfold property_ok. destruct (decide (name p = n)) as [Heq|Hne].
  - rewrite Heq, lookup_delete_eq. by eapply may_omit_In.
  - rewrite lookup_delete_ne by done.
    by apply (proj1 (conforms_forall o) Hc p).
Qed.

(** Writing a value that every declaration of the name admits keeps a
    conforming record conforming. *)
Lemma conforms_insert o n v :
  admits I n v = true → conforms I o = true →
  conforms I (<[n := v]> o) = true.
Proof.
  intros Hadm Hc. apply conforms_forall. intros p Hp.
  unfold property_ok. destruct (decide (name p = n)) as [Heq|Hne].
  - rewrite Heq, lookup_insert_eq. by eapply admits_In.
  - rewrite lookup_insert_ne by done.
    by apply (proj1 (conforms_forall o) Hc p).
Qed.

Lemma declared_as_In n t p :
  declared_as I n t = true → In p I → name p = n → type_of p = t.
Proof.
  unfold declared_as. rewrite forallb_forall. intros H Hp Hn.
  specialize (H p Hp). rewrite bool_decide_eq_true_2 in H by done.
  by apply bool_decide_eq_true in H.
Qed.

(** A declared property that is present in a conforming record holds
    a value of its declared type. *)
Lemma conforms_declared_as o n t v :
  declared_as I n t = true → In n (declared_names I) →
  conforms I o = true → o !! n = Some v → has_type t v = true.
Proof.
  intros Hd (p & Hp & Hn)%declared_names_In Hc Hv.
  rewrite <- (declared_as_In n t p Hd Hp Hn).
  apply (conforms_value o p v Hc Hp). by rewrite Hn.
Qed.

Lemma declared_as_admits n t v :
  declared_as I n t = true → has_type t v = true → admits I n v = true.
Proof.
  intros Hd Ht. unfold admits. apply forallb_forall. intros p Hp.
  destruct (bool_decide (name p = n)) eqn:Hn; [|done].
  apply bool_decide_eq_true in Hn. simpl.
  by rewrite (declared_as_In n t p Hd Hp Hn).
Qed.
End Conformance.

Lemma has_type_number v : has_type TNumber v = true ↔ ∃ x, v = VNumber x.
Proof.
  destruct v; simpl; (split; [intros ? | intros [? ?]]); eauto; discriminate.
Qed.

Lemma has_type_string v : has_type TString v = true ↔ ∃ s, v = VString s.
Proof.
  destruct v; simpl; (split; [intros ? | intros [? ?]]); eauto; discriminate.
Qed.

Lemma has_type_lit s v : has_type (TLit s) v = true ↔ v = VString s.
Proof.
  destruct v; simpl; try (split; intros; discriminate).
  rewrite bool_decide_eq_true. split; congruence.
Qed.

Lemma has_type_or a b v :
  has_type (TOr a b) v = true ↔ has_type a v = true ∨ has_type b v = true.
Proof. simpl. apply orb_true_iff. Qed.

(** ** General facts about assignability *)

Lemma exact_declared (I : interface) (o : record) (n : string) :
  exact I o = true → is_Some (o !! n) → In n (declared_names I).
Proof.
  unfold exact. intros Hex%bool_decide_eq_true Hn%elem_of_dom.
  by apply list_elem_of_In, (elem_of_list_to_set (C := gset string)), Hex.
Qed.

Lemma exact_delete (I : interface) (o : record) (n : string) :
  exact I o = true → exact I (delete n o) = true.
Proof.
  unfold exact. rewrite !bool_decide_eq_true, dom_delete_L.
  intros H x [Hx _]%elem_of_difference. by apply H.
Qed.

Lemma has_properties_true (o : record) :
  has_properties o = true ↔ ∃ n, is_Some (o !! n).
Proof.
  unfold has_properties.
  rewrite negb_true_iff, bool_decide_eq_false, dom_empty_iff_L. split.
  - intros (n & v & Hv)%map_choose. exists n. by eexists.
  - intros (n & v & Hv) ->. by rewrite lookup_empty in Hv.
Qed.

Lemma has_common_property_true (I : interface) (o : record) :
  has_common_property I o = true ↔
  ∃ n, is_Some (o !! n) ∧ In n (declared_names I).
Proof.
  unfold has_common_property. rewrite existsb_exists. split.
  - intros ([n v] & Hin & Hd). exists n. split.
    + exists v. by apply elem_of_map_to_list, list_elem_of_In.
    + apply bool_decide_eq_true in Hd. by apply list_elem_of_In.
  - intros (n & [v Hv] & Hd). exists (n, v). split.
    + by apply list_elem_of_In, elem_of_map_to_list.
    + by apply bool_decide_eq_true, list_elem_of_In.
Qed.

Lemma assignable_conforms (I : interface) (o : record) :
  assignable I o = true → conforms I o = true.
Proof.
  unfold assignable.
  by destruct (weak I && has_properties o && negb (has_common_property I o)).
Qed.

Lemma assignable_not_weak (I : interface) (o : record) :
  weak I = false → assignable I o = conforms I o.
Proof. unfold assignable. by intros ->. Qed.

Lemma assignable_no_properties (I : interface) (o : record) :
  has_properties o = false → assignable I o = conforms I o.
Proof. unfold assignable. intros ->. by rewrite andb_false_r. Qed.

Lemma assignable_common (I : interface) (o : record) :
  has_common_property I o = true → assignable I o = conforms I o.
Proof. unfold assignable. intros ->. by rewrite andb_false_r. Qed.

(** On a record with declared properties only the two checks agree. *)
Lemma assignable_exact (I : interface) (o : record) :
  exact I o = true → assignable I o = conforms I o.
Proof.
  intros Hex. destruct (has_properties o) eqn:Hp.
  - apply assignable_common, has_common_property_true.
    apply has_properties_true in Hp as [n Hn]. exists n. split; [done|].
    by apply (exact_declared I o).
  - by apply assignable_no_properties.
Qed.

(** [JavascriptCookieChange] is the one weak type of the schema. *)
Lemma weak_kind (k : record_kind) :
  weak (interface_of k) = true ↔ k = KJavascriptCookieChange.
Proof. destruct k; simpl; split; intros H; done. Qed.

Lemma not_weak_kind (k : record_kind) :
  k ≠ KJavascriptCookieChange → weak (interface_of k) = false.
Proof.
  intros Hk. destruct (weak (interface_of k)) eqn:Hw; [|done].
  by apply weak_kind in Hw.
Qed.

Lemma assignable_exact_or_not_weak (k : record_kind) (o : record) :
  k ≠ KJavascriptCookieChange ∨ exact (interface_of k) o = true →
  assignable (interface_of k) o = conforms (interface_of k) o.
Proof.
  intros [Hk|Hex].
  - by apply assignable_not_weak, not_weak_kind.
  - by apply assignable_exact.
Qed.

(** ** The required properties of each kind, as declared *)

Lemma required_HttpRequest :
  required_names HttpRequest =
  ["url"; "method"; "referrer"; "headers"; "channel_id"; "resource_type";
   "time_stamp"].
Proof. reflexivity. Qed.

Lemma required_HttpResponse :
  required_names HttpResponse =
  ["url"; "method"; "referrer"; "response_status"; "response_status_text";
   "is_cached"; "headers"; "channel_id"; "location"; "time_stamp"].
Proof. reflexivity. Qed.

Lemma required_HttpRedirect :
  required_names HttpRedirect =
  ["is_temporary"; "is_permanent"; "is_internal"; "is_sts_upgrade";
   "time_stamp"].
Proof. reflexivity. Qed.

Lemma required_JavascriptOperation :
  required_names JavascriptOperation = ["time_stamp"].
Proof. reflexivity. Qed.

Lemma required_JavascriptCookieChange :
  required_names JavascriptCookieChange = [].
Proof. reflexivity. Qed.

(** ** Presence of [time_stamp] *)

(** C1, as stated, fails on [JavascriptCookieChange]: the empty record
    conforms to it and carries no [time_stamp]. *)
Lemma time_stamp_absent_on_cookie_change :
  ¬ (conforms (interface_of KJavascriptCookieChange) ∅ = true →
     is_Some ((∅ : record) !! "time_stamp")).
Proof.
  intros H. destruct H as [v Hv]; [reflexivity|].
  rewrite lookup_empty in Hv. discriminate.
Qed.

(** C1 (amended): for the four kinds [HttpRequest], [HttpResponse],
    [HttpRedirect] and [JavascriptOperation], every conforming record
    has a [time_stamp]; [JavascriptCookieChange] declares no property of
    that name. *)
Theorem time_stamp_present_on_four_kinds (k : record_kind) (o : record) :
  k ≠ KJavascriptCookieChange →
  conforms (interface_of k) o = true →
  is_Some (o !! "time_stamp") ∧
  ¬ In "time_stamp" (declared_names JavascriptCookieChange).
Proof.
  intros Hk Hc. split.
  - apply (conforms_required_present (interface_of k)); [done|].
    destruct k; [..|done]; vm_compute; in_list.
  - simpl. intros H. repeat (destruct H as [H|H]; [discriminate|]). done.
Qed.

Lemma time_stamp_present_on_four_kinds_witness :
  is_Some ((<["time_stamp" := VString "2024-01-01T00:00:00Z"]> ∅ : record)
             !! "time_stamp") ∧
  ¬ In "time_stamp" (declared_names JavascriptCookieChange).
Proof.
  apply (time_stamp_present_on_four_kinds KJavascriptOperation).
  - discriminate.
  - reflexivity.
Defined.

(** ** Numeric flags *)

Lemma flags_declared_number (k : record_kind) (n : string) :
  In n (flags_of (interface_of k)) →
  In n (declared_names (interface_of k)) ∧
  declared_as (interface_of k) n TNumber = true.
Proof.
  intros Hn. split.
  - unfold flags_of in Hn. by apply filter_In in Hn as [Hn _].
  - assert (Hall : forallb (fun n => declared_as (interface_of k) n TNumber)
                     (flags_of (interface_of k)) = true)
      by (destruct k; reflexivity).
    rewrite forallb_forall in Hall. by apply Hall.
Qed.

(** C2, as stated, fails: an [HttpResponse] whose [is_cached] is the
    number 2 conforms, and 2 is neither 0 nor 1. *)
Lemma flag_two_conforms :
  ¬ (conforms (interface_of KHttpResponse) response_with_flag_two = true →
     In "is_cached" (flags_of (interface_of KHttpResponse)) →
     ∀ v, response_with_flag_two !! "is_cached" = Some v →
          is_zero_or_one v = true).
Proof.
  intros H.
  specialize (H eq_refl (or_introl eq_refl) (VNumber (number_of_Z 2)) eq_refl).
  vm_compute in H. discriminate.
Qed.

(** C2 (amended): in a conforming record of any of the five kinds, a
    flag the kind declares holds a number whenever it is present; the
    declared type is [number], so the record stays conforming whichever
    number the flag is set to (0 and 1 included, but not only those). *)
Theorem flags_hold_numbers (k : record_kind) (o : record) (n : string) :
  conforms (interface_of k) o = true →
  In n (flags_of (interface_of k)) →
  (∀ v, o !! n = Some v → ∃ x, v = VNumber x) ∧
  (∀ x, conforms (interface_of k) (<[n := VNumber x]> o) = true).
Proof.
  intros Hc [Hdecl Hty]%flags_declared_number. split.
  - intros v Hv. apply has_type_number.
    by apply (conforms_declared_as (interface_of k) o n).
  - intros x. apply conforms_insert; [|done].
    by apply (declared_as_admits _ n TNumber).
Qed.

Lemma flags_hold_numbers_witness :
  (∀ v, example_response !! "is_cached" = Some v → ∃ x, v = VNumber x) ∧
  (∀ x, conforms (interface_of KHttpResponse)
          (<["is_cached" := VNumber x]> example_response) = true).
Proof.
  apply (flags_hold_numbers KHttpResponse example_response "is_cached").
  - reflexivity.
  - simpl. left. reflexivity.
Defined.

(** ** The closed tag [change] *)

Lemma change_declared :
  In "change" (declared_names JavascriptCookieChange) ∧
  declared_as JavascriptCookieChange "change"
    (TLit "deleted" |: TLit "added" |: TLit "changed") = true.
Proof. split; [vm_compute; in_list | reflexivity]. Qed.

Lemma change_value_cases (o : record) (v : value) :
  conforms JavascriptCookieChange o = true → o !! "change" = Some v →
  v = VString "deleted" ∨ v = VString "added" ∨ v = VString "changed".
Proof.
  intros Hc Hv. destruct change_declared as [Hin Hty].
  pose proof (conforms_declared_as _ o _ _ v Hty Hin Hc Hv) as H.
  rewrite !has_type_or, !has_type_lit in H. exact H.
Qed.

(** C3: a conforming [JavascriptCookieChange] whose [change] is present
    holds one of "deleted", "added", "changed" there, and a record whose
    [change] is any other string does not conform. *)
Theorem change_is_closed_tag (o : record) :
  (conforms JavascriptCookieChange o = true →
   ∀ v, o !! "change" = Some v →
        v = VString "deleted" ∨ v = VString "added" ∨ v = VString "changed") ∧
  (∀ s, o !! "change" = Some (VString s) →
        s ≠ "deleted" → s ≠ "added" → s ≠ "changed" →
        conforms JavascriptCookieChange o = false).
Proof.
  split.
  - intros Hc v Hv. by apply (change_value_cases o).
  - intros s Hs H1 H2 H3.
    destruct (conforms JavascriptCookieChange o) eqn:Hc; [|done].
    destruct (change_value_cases o _ Hc Hs) as [H|[H|H]]; congruence.
Qed.

Lemma change_is_closed_tag_witness :
  (VString "added" = VString "deleted" ∨ VString "added" = VString "added" ∨
   VString "added" = VString "changed") ∧
  conforms JavascriptCookieChange {["change" := VString "removed"]} = false.
Proof.
  split.
  - apply (proj1 (change_is_closed_tag {["change" := VString "added"]}));
      reflexivity.
  - apply (proj2 (change_is_closed_tag {["change" := VString "removed"]})
             "removed"); [reflexivity | discriminate ..].
Defined.

(** ** Required and optional properties *)

(** C4: a record with exactly [url], [method], [referrer], [headers],
    [channel_id], [resource_type] and [time_stamp], each a string,
    conforms to [HttpRequest]; these seven are its required properties
    and the remaining fourteen are optional. *)
Theorem minimal_request_conforms (u m r h c rt ts : string) :
  conforms HttpRequest (minimal_request u m r h c rt ts) = true ∧
  dom (minimal_request u m r h c rt ts) =
    list_to_set (required_names HttpRequest) ∧
  required_names HttpRequest =
    ["url"; "method"; "referrer"; "headers"; "channel_id"; "resource_type";
     "time_stamp"] ∧
  optional_names HttpRequest =
    ["id"; "crawl_id"; "visit_id"; "top_level_url"; "is_XHR"; "is_frame_load";
     "is_full_page"; "is_third_party_channel"; "is_third_party_to_top_window";
     "triggering_origin"; "loading_origin"; "loading_href"; "req_call_stack";
     "post_body"].
Proof.
  split; [reflexivity|]. split; [|split; reflexivity].
  unfold minimal_request. rewrite !dom_insert_L, dom_empty_L.
  rewrite required_HttpRequest. simpl. set_solver.
Qed.

(** C5: for each of the five kinds, a record in which a required
    property of the kind is absent does not conform, whatever else it
    holds. *)
Theorem missing_required_field_rejected
    (k : record_kind) (o : record) (n : string) :
  In n (required_names (interface_of k)) →
  o !! n = None →
  conforms (interface_of k) o = false.
Proof. apply missing_required_rejected. Qed.

Lemma missing_required_field_rejected_witness :
  conforms (interface_of KHttpResponse) (delete "url" example_response) = false.
Proof.
  apply (missing_required_field_rejected KHttpResponse _ "url").
  - simpl. left. reflexivity.
  - reflexivity.
Defined.

(** C6: the example response of the specification conforms to
    [HttpResponse]; [content_hash] and the three identifiers are absent
    from it. *)
Theorem example_response_conforms :
  conforms HttpResponse example_response = true ∧
  example_response !! "content_hash" = None ∧
  example_response !! "id" = None ∧
  example_response !! "crawl_id" = None ∧
  example_response !! "visit_id" = None.
Proof. repeat split. Qed.

(** ** Identifier properties *)







(** ** The two kinds with few required properties *)

(** C9: [JavascriptCookieChange] declares every one of its properties
    optional, [change], [name], [value] and the time-like properties
    included, and the empty record conforms to it. *)
Theorem cookie_change_all_optional :
  required_names JavascriptCookieChange = [] ∧
  forallb optional JavascriptCookieChange = true ∧
  optional_names JavascriptCookieChange =
    declared_names JavascriptCookieChange ∧
  conforms JavascriptCookieChange ∅ = true.
Proof. repeat split. Qed.

(** C10: in [HttpRedirect] the two channel identifiers are optional and
    the four flags are required: the record made of the four flags and
    [time_stamp] conforms, and a record lacking one of the four flags
    does not. *)
Theorem redirect_flags_required (o : record) (n : string) :
  (∀ (t p i s : number) (ts : string),
     conforms HttpRedirect (bare_redirect t p i s ts) = true ∧
     bare_redirect t p i s ts !! "old_channel_id" = None ∧
     bare_redirect t p i s ts !! "new_channel_id" = None) ∧
  may_omit HttpRedirect "old_channel_id" = true ∧
  may_omit HttpRedirect "new_channel_id" = true ∧
  (In n ["is_temporary"; "is_permanent"; "is_internal"; "is_sts_upgrade"] →
   o !! n = None →
   conforms HttpRedirect o = false).
Proof.
  split; [intros; repeat split|]. split; [reflexivity|].
  split; [reflexivity|]. intros Hn Hnone.
  apply (missing_required_rejected HttpRedirect o n); [|done].
  rewrite required_HttpRedirect. simpl in *. tauto.
Qed.

Lemma redirect_flags_required_witness :
  conforms HttpRedirect
    (delete "is_internal"
       (bare_redirect (number_of_Z 0) (number_of_Z 1) (number_of_Z 0)
          (number_of_Z 0) "2024-01-01T00:00:00Z")) = false.
Proof.
  apply (proj2 (proj2 (proj2 (redirect_flags_required _ "is_internal")))).
  - simpl. right. right. left. reflexivity.
  - reflexivity.
Defined.

(** * Further properties of the schema *)

(** ** Declarations across the five interfaces *)

Lemma agree_In (I J : interface) (p q : property) :
  agree I J = true → In p I → In q J → name p = name q → p = q.
Proof.
  unfold agree. rewrite forallb_forall. intros H Hp Hq Hn.
  specialize (H p Hp). rewrite forallb_forall in H. specialize (H q Hq).
  rewrite bool_decide_eq_true_2 in H by done.
  by apply bool_decide_eq_true in H.
Qed.

Lemma kinds_agree (k1 k2 : record_kind) :
  agree (interface_of k1) (interface_of k2) = true.
Proof. destruct k1, k2; vm_compute; reflexivity. Qed.

Lemma same_declaration (k1 k2 : record_kind) (p q : property) :
  In p (interface_of k1) → In q (interface_of k2) → name p = name q → p = q.
Proof. apply agree_In, kinds_agree. Qed.

(** X1: no interface declares a property name twice. *)
Theorem declared_names_unique (k : record_kind) :
  NoDup (declared_names (interface_of k)).
Proof.
  destruct k; apply (bool_decide_unpack _); vm_compute; exact I.
Qed.

(** X2: a property name is declared the same way wherever it occurs:
    two declarations of one name, in the same or in different
    interfaces, have the same optionality and the same type. *)
Theorem shared_names_same_declaration
    (k1 k2 : record_kind) (p q : property) :
  In p (interface_of k1) → In q (interface_of k2) → name p = name q →
  optional p = optional q ∧ type_of p = type_of q.
Proof.
  intros Hp Hq Hn. by rewrite (same_declaration k1 k2 p q Hp Hq Hn).
Qed.

Lemma shared_names_same_declaration_witness :
  optional ("top_level_url" ?: TString) = optional ("top_level_url" ?: TString) ∧
  type_of ("top_level_url" ?: TString) = type_of ("top_level_url" ?: TString).
Proof.
  apply (shared_names_same_declaration KHttpRequest KJavascriptOperation).
  - vm_compute. in_list.
  - vm_compute. in_list.
  - reflexivity.
Defined.

(** ** Values held by conforming records *)

Lemma has_type_scalar (t : type) (v : value) :
  has_type t v = true → (∃ s, v = VString s) ∨ (∃ x, v = VNumber x).
Proof.
  induction t as [| |s|a IHa b IHb]; simpl.
  - intros H. left. by apply has_type_string.
  - intros H. right. by apply has_type_number.
  - destruct v; try discriminate. intros _. left. by eexists.
  - intros [H|H]%orb_true_iff; auto.
Qed.

(** X3: records are flat: in a conforming record of any kind, a declared
    property that is present holds a string or a number, never [null],
    a boolean, an array or a nested object. *)
Theorem declared_values_are_scalars
    (k : record_kind) (o : record) (n : string) (v : value) :
  conforms (interface_of k) o = true →
  In n (declared_names (interface_of k)) →
  o !! n = Some v →
  (∃ s, v = VString s) ∨ (∃ x, v = VNumber x).
Proof.
  intros Hc (p & Hp & <-)%declared_names_In Hv.
  apply (has_type_scalar (type_of p)).
  by apply (conforms_value (interface_of k) o p).
Qed.

Lemma declared_values_are_scalars_witness :
  (∃ s, VNumber (number_of_Z 200) = VString s) ∨
  (∃ x, VNumber (number_of_Z 200) = VNumber x).
Proof.
  apply (declared_values_are_scalars KHttpResponse example_response
           "response_status").
  - reflexivity.
  - vm_compute. in_list.
  - reflexivity.
Defined.

(** X4: on every kind the identifiers [id], [crawl_id] and [visit_id]
    hold numbers whenever a conforming record carries them. *)
Theorem identifiers_hold_numbers
    (k : record_kind) (o : record) (n : string) (v : value) :
  conforms (interface_of k) o = true →
  In n identifier_names →
  o !! n = Some v →
  ∃ x, v = VNumber x.
Proof.
  intros Hc Hn Hv. apply has_type_number.
  apply (conforms_declared_as (interface_of k) o n TNumber v); try done.
  - cases_In Hn; destruct k; reflexivity.
  - cases_In Hn; destruct k; vm_compute; in_list.
Qed.

Lemma identifiers_hold_numbers_witness :
  ∃ x, VNumber (number_of_Z 42) = VNumber x.
Proof.
  apply (identifiers_hold_numbers KHttpResponse response_with_identifiers
           "visit_id").
  - reflexivity.
  - vm_compute. in_list.
  - reflexivity.
Defined.

(** ** Updating conforming records *)

Lemma declared_admits (k : record_kind) (p : property) (v : value) :
  In p (interface_of k) → has_type (type_of p) v = true →
  admits (interface_of k) (name p) v = true.
Proof.
  intros Hp Hv. unfold admits. apply forallb_forall. intros q Hq.
  destruct (bool_decide (name q = name p)) eqn:Hn; [|done].
  apply bool_decide_eq_true in Hn.
  by rewrite (same_declaration k k q p Hq Hp Hn).
Qed.

Lemma optional_may_omit (k : record_kind) (n : string) :
  In n (optional_names (interface_of k)) →
  may_omit (interface_of k) n = true.
Proof.
  unfold optional_names. rewrite in_map_iff.
  intros (p & <- & [Hp Hopt]%filter_In).
  unfold may_omit. apply forallb_forall. intros q Hq.
  destruct (bool_decide (name q = name p)) eqn:Hn; [|done].
  apply bool_decide_eq_true in Hn.
  by rewrite (same_declaration k k q p Hq Hp Hn).
Qed.

(** X5: writing a value of the declared type into a declared property
    of a conforming record, whether the property was present or not,
    gives a conforming record. *)
Theorem conforms_set_declared
    (k : record_kind) (o : record) (p : property) (v : value) :
  In p (interface_of k) →
  has_type (type_of p) v = true →
  conforms (interface_of k) o = true →
  conforms (interface_of k) (<[name p := v]> o) = true.
Proof.
  intros Hp Hv Hc. apply conforms_insert; [|done].
  by apply declared_admits.
Qed.

Lemma conforms_set_declared_witness :
  conforms (interface_of KHttpResponse)
    (<["content_hash" := VString "d41d8cd9"]> example_response) = true.
Proof.
  apply (conforms_set_declared KHttpResponse example_response
           ("content_hash" ?: TString)).
  - vm_compute. in_list.
  - reflexivity.
  - reflexivity.
Defined.

(** X6: removing a property that the kind declares optional from a
    conforming record gives a conforming record, for every record of
    the four kinds with a required property and for the records of
    [JavascriptCookieChange] that carry declared properties only. *)
Theorem assignable_drop_optional
    (k : record_kind) (o : record) (n : string) :
  In n (optional_names (interface_of k)) →
  assignable (interface_of k) o = true →
  k ≠ KJavascriptCookieChange ∨ exact (interface_of k) o = true →
  assignable (interface_of k) (delete n o) = true.
Proof.
  intros Hn Ha Hk. rewrite assignable_exact_or_not_weak.
  - apply conforms_delete; [by apply optional_may_omit|].
    by apply assignable_conforms.
  - destruct Hk as [Hk|Hex]; [by left|right]. by apply exact_delete.
Qed.

Lemma assignable_drop_optional_witness :
  assignable (interface_of KJavascriptCookieChange)
    (delete "name" cookie_with_identifiers) = true.
Proof.
  apply (assignable_drop_optional KJavascriptCookieChange).
  - vm_compute. in_list.
  - reflexivity.
  - right. reflexivity.
Defined.

(** ** Cutting records down *)

Lemma restrict_to_lookup_in (names : list string) (o : record) (n : string) :
  In n names → restrict_to names o !! n = o !! n.
Proof.
  intros Hn%list_elem_of_In. unfold restrict_to.
  destruct (o !! n) as [v|] eqn:Hv.
  - by apply map_lookup_filter_Some.
  - apply map_lookup_filter_None. by left.
Qed.

Lemma restrict_to_lookup_out (names : list string) (o : record) (n : string) :
  ¬ In n names → restrict_to names o !! n = None.
Proof.
  intros Hn. unfold restrict_to. apply map_lookup_filter_None. right.
  intros v _ Hin. simpl in Hin. by apply list_elem_of_In in Hin.
Qed.

Lemma conforms_agree (I : interface) (o1 o2 : record) :
  (∀ n, In n (declared_names I) → o1 !! n = o2 !! n) →
  conforms I o1 = conforms I o2.
Proof.
  intros Hagree. unfold conforms. apply eq_true_iff_eq.
  rewrite !forallb_forall.
  assert (Hok : ∀ p, In p I → property_ok o1 p = property_ok o2 p).
  { intros p Hp. unfold property_ok. rewrite Hagree; [done|].
    apply declared_names_In. by exists p. }
  split; intros H p Hp; [rewrite <- Hok | rewrite Hok]; auto.
Qed.

Lemma required_declared (I : interface) (n : string) :
  In n (required_names I) → In n (declared_names I).
Proof.
  intros (p & Hp & Hn & _)%required_names_In.
  apply declared_names_In. by exists p.
Qed.

(** X7: undeclared properties are ignored exactly on the four kinds
    with a required property: there, two records that hold the same
    thing under every declared name are both accepted or both
    rejected; on [JavascriptCookieChange] they need not be (the empty
    record is accepted, a record with one undeclared property is not). *)
Theorem undeclared_ignored_unless_weak (k : record_kind) :
  (∀ o1 o2 : record,
     (∀ n, In n (declared_names (interface_of k)) → o1 !! n = o2 !! n) →
     assignable (interface_of k) o1 = assignable (interface_of k) o2) ↔
  k ≠ KJavascriptCookieChange.
Proof.
  split.
  - intros H ->. specialize (H ∅ only_comment).
    assert (Heq : assignable (interface_of KJavascriptCookieChange) ∅ =
                  assignable (interface_of KJavascriptCookieChange)
                    only_comment)
      by (apply H; intros n Hn; cases_In Hn; reflexivity).
    vm_compute in Heq. discriminate.
  - intros Hk o1 o2 Hag.
    rewrite !assignable_not_weak by (by apply not_weak_kind).
    by apply conforms_agree.
Qed.

Lemma undeclared_ignored_unless_weak_witness :
  assignable (interface_of KHttpRedirect)
    (<["comment" := VNull]>
       (bare_redirect (number_of_Z 1) (number_of_Z 0) (number_of_Z 0)
          (number_of_Z 0) "2024-01-01T00:00:00Z")) =
  assignable (interface_of KHttpRedirect)
    (bare_redirect (number_of_Z 1) (number_of_Z 0) (number_of_Z 0)
       (number_of_Z 0) "2024-01-01T00:00:00Z").
Proof.
  apply (proj2 (undeclared_ignored_unless_weak KHttpRedirect)).
  - discriminate.
  - intros n Hn. cases_In Hn; reflexivity.
Defined.

Lemma strip_undeclared_exact (I : interface) (o : record) :
  exact I (strip_undeclared I o) = true.
Proof.
  unfold exact. apply bool_decide_eq_true. intros n Hn.
  apply elem_of_list_to_set, list_elem_of_In.
  destruct (in_dec String.string_dec n (declared_names I)) as [|Hout];
    [done|].
  apply elem_of_dom in Hn as [v Hv].
  unfold strip_undeclared in Hv.
  rewrite restrict_to_lookup_out in Hv by done. discriminate.
Qed.

Lemma strip_undeclared_keeps_conforms (I : interface) (o : record) :
  conforms I (strip_undeclared I o) = conforms I o.
Proof.
  apply conforms_agree. intros n Hn. by apply restrict_to_lookup_in.
Qed.

(** X8: dropping every property a kind does not declare leaves a record
    with declared properties only and never turns acceptance into
    rejection; on the four kinds with a required property it does not
    turn rejection into acceptance either. *)
Theorem strip_undeclared_assignable (k : record_kind) (o : record) :
  exact (interface_of k) (strip_undeclared (interface_of k) o) = true ∧
  (assignable (interface_of k) o = true →
   assignable (interface_of k) (strip_undeclared (interface_of k) o) = true) ∧
  (k ≠ KJavascriptCookieChange →
   assignable (interface_of k) (strip_undeclared (interface_of k) o) =
     assignable (interface_of k) o).
Proof.
  split; [apply strip_undeclared_exact|]. split.
  - intros Ha%assignable_conforms.
    rewrite assignable_exact by apply strip_undeclared_exact.
    by rewrite strip_undeclared_keeps_conforms.
  - intros Hk. rewrite !assignable_not_weak by (by apply not_weak_kind).
    apply strip_undeclared_keeps_conforms.
Qed.

Lemma strip_undeclared_assignable_witness :
  assignable (interface_of KJavascriptCookieChange)
    (strip_undeclared (interface_of KJavascriptCookieChange)
       identified_comment) = true ∧
  assignable (interface_of KHttpResponse)
    (strip_undeclared (interface_of KHttpResponse) only_comment) =
    assignable (interface_of KHttpResponse) only_comment.
Proof.
  split.
  - apply (proj1 (proj2 (strip_undeclared_assignable
                           KJavascriptCookieChange identified_comment))).
    reflexivity.
  - apply (proj2 (proj2 (strip_undeclared_assignable
                           KHttpResponse only_comment))).
    discriminate.
Defined.

Lemma required_core_keeps (I : interface) (o : record) :
  conforms I o = true →
  conforms I (required_core I o) = true ∧
  dom (required_core I o) = list_to_set (required_names I).
Proof.
  intros Hc. unfold required_core. split.
  - apply conforms_forall. intros p Hp. unfold property_ok.
    destruct (optional p) eqn:Hopt.
    + destruct (in_dec String.string_dec (name p) (required_names I))
        as [Hin|Hout].
      * rewrite restrict_to_lookup_in by done.
        pose proof (proj1 (conforms_forall _ o) Hc p Hp) as H.
        unfold property_ok in H. by rewrite Hopt in H.
      * by rewrite restrict_to_lookup_out.
    + rewrite restrict_to_lookup_in
        by (apply required_names_In; by exists p).
      pose proof (proj1 (conforms_forall _ o) Hc p Hp) as H.
      unfold property_ok in H. by rewrite Hopt in H.
  - apply set_eq. intros n.
    rewrite elem_of_dom, elem_of_list_to_set, list_elem_of_In. split.
    + intros [v Hv].
      destruct (in_dec String.string_dec n (required_names I)) as [|Hout];
        [done|].
      rewrite restrict_to_lookup_out in Hv by done. discriminate.
    + intros Hn. rewrite restrict_to_lookup_in by done.
      by apply (conforms_required_present I).
Qed.

(** X9: keeping only the required properties of a conforming record
    (dropping its optional and its undeclared properties) leaves a
    conforming record whose set of properties is exactly the set of
    required properties of the kind. *)
Theorem required_core_assignable (k : record_kind) (o : record) :
  assignable (interface_of k) o = true →
  assignable (interface_of k) (required_core (interface_of k) o) = true ∧
  dom (required_core (interface_of k) o) =
    list_to_set (required_names (interface_of k)).
Proof.
  intros Ha%assignable_conforms.
  destruct (required_core_keeps (interface_of k) o Ha) as [Hc Hdom].
  split; [|done].
  destruct (weak (interface_of k)) eqn:Hw.
  - rewrite assignable_no_properties; [done|].
    apply weak_kind in Hw as ->.
    unfold has_properties. by rewrite Hdom.
  - by rewrite assignable_not_weak.
Qed.

Lemma required_core_assignable_witness :
  assignable (interface_of KHttpRedirect)
    (required_core (interface_of KHttpRedirect)
       (<["comment" := VNull]>
          (<["old_channel_id" := VString "abc122"]>
             (bare_redirect (number_of_Z 1) (number_of_Z 0) (number_of_Z 0)
                (number_of_Z 0) "2024-01-01T00:00:00Z")))) = true ∧
  dom (required_core (interface_of KHttpRedirect)
         (<["comment" := VNull]>
            (<["old_channel_id" := VString "abc122"]>
               (bare_redirect (number_of_Z 1) (number_of_Z 0) (number_of_Z 0)
                  (number_of_Z 0) "2024-01-01T00:00:00Z")))) =
    list_to_set (required_names (interface_of KHttpRedirect)).
Proof.
  apply (required_core_assignable KHttpRedirect).
  reflexivity.
Defined.

(** X10: laying one conforming record over another (the properties of
    the first, completed by those of the second) gives a conforming
    record. *)
Theorem conforms_union (k : record_kind) (o1 o2 : record) :
  conforms (interface_of k) o1 = true →
  conforms (interface_of k) o2 = true →
  conforms (interface_of k) (o1 ∪ o2) = true.
Proof.
  intros H1 H2. apply conforms_forall. intros p Hp.
  pose proof (proj1 (conforms_forall _ o1) H1 p Hp) as Hp1.
  pose proof (proj1 (conforms_forall _ o2) H2 p Hp) as Hp2.
  unfold property_ok in *. rewrite lookup_union.
  destruct (o1 !! name p) as [v1|], (o2 !! name p) as [v2|]; done.
Qed.

Lemma conforms_union_witness :
  conforms (interface_of KHttpResponse)
    (response_with_flag_two ∪ response_with_identifiers) = true.
Proof.
  apply (conforms_union KHttpResponse); reflexivity.
Defined.

(** ** One record against two kinds *)

Lemma cross_conformance (k1 k2 : record_kind) (o : record) :
  exact (interface_of k1) o = true →
  conforms (interface_of k1) o = true →
  conforms (interface_of k2) o = true ↔
  incl (required_names (interface_of k2)) (declared_names (interface_of k1)).
Proof.
  intros Hex Hc1. split.
  - intros Hc2 n Hn. apply (exact_declared _ o); [done|].
    by apply (conforms_required_present (interface_of k2)).
  - intros Hincl. apply conforms_forall. intros p Hp. unfold property_ok.
    destruct (o !! name p) as [v|] eqn:Hv.
    + assert (Hd : In (name p) (declared_names (interface_of k1)))
        by (apply (exact_declared _ o); [done|by eexists]).
      apply declared_names_In in Hd as (q & Hq & Hn).
      rewrite <- (same_declaration k1 k2 q p Hq Hp Hn).
      apply (conforms_value (interface_of k1) o q v); [done..|].
      by rewrite Hn.
    + destruct (optional p) eqn:Hopt; [done|].
      assert (Hr : In (name p) (required_names (interface_of k2)))
        by (apply required_names_In; by exists p).
      apply Hincl, declared_names_In in Hr as (q & Hq & Hn).
      pose proof (same_declaration k1 k2 q p Hq Hp Hn) as ->.
      pose proof (proj1 (conforms_forall _ o) Hc1 p Hq) as H.
      unfold property_ok in H. rewrite Hv in H. congruence.
Qed.

(** X11: a conforming record of one kind that carries declared
    properties only conforms to a second kind with a required property
    exactly when the first kind declares every property the second
    requires. *)
Theorem exact_record_other_kind_assignable
    (k1 k2 : record_kind) (o : record) :
  k2 ≠ KJavascriptCookieChange →
  exact (interface_of k1) o = true →
  assignable (interface_of k1) o = true →
  assignable (interface_of k2) o = true ↔
  incl (required_names (interface_of k2)) (declared_names (interface_of k1)).
Proof.
  intros Hk2 Hex Ha%assignable_conforms.
  rewrite assignable_not_weak by (by apply not_weak_kind).
  by apply cross_conformance.
Qed.

Lemma exact_record_other_kind_assignable_witness :
  assignable (interface_of KJavascriptOperation) example_response = true ↔
  incl (required_names (interface_of KJavascriptOperation))
       (declared_names (interface_of KHttpResponse)).
Proof.
  apply (exact_record_other_kind_assignable KHttpResponse
           KJavascriptOperation).
  - discriminate.
  - reflexivity.
  - reflexivity.
Defined.

Lemma shared_with_cookie_change (k : record_kind) (n : string) :
  k ≠ KJavascriptCookieChange →
  In n (declared_names (interface_of k)) →
  In n (declared_names JavascriptCookieChange) →
  In n ["id"; "crawl_id"; "visit_id"; "value"].
Proof.
  intros Hk Hn Hc.
  assert (Hall : forallb (fun n =>
                    implb (bool_decide (n ∈ declared_names JavascriptCookieChange))
                          (bool_decide (n ∈ ["id"; "crawl_id"; "visit_id"; "value"])))
                   (declared_names (interface_of k)) = true)
    by (destruct k; try done; reflexivity).
  rewrite forallb_forall in Hall. specialize (Hall n Hn).
  rewrite bool_decide_eq_true_2 in Hall by (by apply list_elem_of_In).
  by apply bool_decide_eq_true, list_elem_of_In in Hall.
Qed.

(** X12: a conforming record of [HttpRequest], [HttpResponse],
    [HttpRedirect] or [JavascriptOperation] that carries declared
    properties only also conforms to [JavascriptOperation]; it conforms
    to [JavascriptCookieChange] exactly when it carries one of [id],
    [crawl_id], [visit_id] and [value], the names the cookie change
    shares with the other kinds. *)
Theorem exact_record_as_cookie_change (k : record_kind) (o : record) :
  k ≠ KJavascriptCookieChange →
  exact (interface_of k) o = true →
  assignable (interface_of k) o = true →
  (assignable JavascriptCookieChange o = true ↔
   ∃ n, In n ["id"; "crawl_id"; "visit_id"; "value"] ∧ is_Some (o !! n)) ∧
  assignable JavascriptOperation o = true.
Proof.
  intros Hk Hex Hc%assignable_conforms.
  assert (Hcc : conforms JavascriptCookieChange o = true).
  { apply (cross_conformance k KJavascriptCookieChange o Hex Hc).
    intros n Hn. destruct Hn. }
  assert (Hts : is_Some (o !! "time_stamp")).
  { apply (conforms_required_present (interface_of k)); [done|].
    destruct k; [..|done]; vm_compute; in_list. }
  split; [split|].
  - intros Ha. unfold assignable in Ha.
    destruct (has_common_property JavascriptCookieChange o) eqn:Hcp.
    + apply has_common_property_true in Hcp as (n & Hn & Hd).
      exists n. split; [|done].
      apply (shared_with_cookie_change k); [done| |done].
      by apply (exact_declared _ o).
    + assert (Hp : has_properties o = true)
        by (apply has_properties_true; by exists "time_stamp").
      rewrite Hp in Ha. discriminate.
  - intros (n & Hn & Hsome).
    rewrite assignable_common; [done|].
    apply has_common_property_true. exists n. split; [done|].
    cases_In Hn; vm_compute; in_list.
  - rewrite assignable_not_weak by reflexivity.
    apply (cross_conformance k KJavascriptOperation o Hex Hc).
    intros n Hn. cases_In Hn. destruct k; [..|done]; vm_compute; in_list.
Qed.

Lemma exact_record_as_cookie_change_witness :
  (assignable JavascriptCookieChange response_with_identifiers = true ↔
   ∃ n, In n ["id"; "crawl_id"; "visit_id"; "value"] ∧
        is_Some (response_with_identifiers !! n)) ∧
  assignable JavascriptOperation response_with_identifiers = true.
Proof.
  apply (exact_record_as_cookie_change KHttpResponse).
  - discriminate.
  - reflexivity.
  - reflexivity.
Defined.

(** X13: a conforming record of one kind with declared properties only
    never conforms to a different kind among [HttpRequest],
    [HttpResponse] and [HttpRedirect]. *)
Theorem exact_record_not_other_http_kind
    (k1 k2 : record_kind) (o : record) :
  k1 ≠ k2 →
  In k2 [KHttpRequest; KHttpResponse; KHttpRedirect] →
  exact (interface_of k1) o = true →
  conforms (interface_of k1) o = true →
  conforms (interface_of k2) o = false.
Proof.
  intros Hne Hk2 Hex Hc.
  destruct (conforms (interface_of k2) o) eqn:Hc2; [|done].
  pose proof (proj1 (cross_conformance k1 k2 o Hex Hc) Hc2) as Hincl.
  assert (Hno : forallb (fun n => bool_decide
                           (n ∈ declared_names (interface_of k1)))
                  (required_names (interface_of k2)) = false)
    by (cases_In Hk2; destruct k1; try done; reflexivity).
  assert (Hyes : forallb (fun n => bool_decide
                           (n ∈ declared_names (interface_of k1)))
                  (required_names (interface_of k2)) = true).
  { apply forallb_forall. intros n Hn. apply bool_decide_eq_true.
    by apply list_elem_of_In, Hincl. }
  congruence.
Qed.

Lemma exact_record_not_other_http_kind_witness :
  conforms (interface_of KHttpRequest) example_response = false.
Proof.
  apply (exact_record_not_other_http_kind KHttpResponse KHttpRequest).
  - discriminate.
  - simpl. left. reflexivity.
  - reflexivity.
  - reflexivity.
Defined.

(** ** Which flags may be left out *)

(** X14: a flag may be absent from a conforming record only on
    [HttpRequest] and [JavascriptCookieChange]; the flags of
    [HttpResponse] and [HttpRedirect] are required. *)
Theorem flag_may_be_absent (k : record_kind) (n : string) :
  In n (flags_of (interface_of k)) →
  may_omit (interface_of k) n = true ↔
  k = KHttpRequest ∨ k = KJavascriptCookieChange.
Proof.
  intros Hn. destruct k; vm_compute in Hn;
    repeat (destruct Hn as [<-|Hn]; [|]); try destruct Hn;
    (split; [intros H | intros [H|H]]); try discriminate; auto.
Qed.

Lemma flag_may_be_absent_witness :
  may_omit (interface_of KHttpRedirect) "is_permanent" = true ↔
  KHttpRedirect = KHttpRequest ∨ KHttpRedirect = KJavascriptCookieChange.
Proof.
  apply (flag_may_be_absent KHttpRedirect "is_permanent").
  vm_compute. in_list.
Defined.

